(** * extract_perf_grid_search: fastest grid-search configuration per MRR cut

    A shallow embedding of [extract_perf_grid_search.py] and the properties
    of its cut generator, best-row selector and table writer.

    Python floats are IEEE-754 binary64 values; they are modelled by the
    standard library's [spec_float] at precision 53 and maximal exponent
    1024, whose operations compute.  Dictionaries are [gmap]s, dictionary
    objects live in a store indexed by references, so that aliasing between
    the loaded rows and the rows handed to the writer is visible. *)

From Stdlib Require Import ZArith List String Ascii Bool Lia SpecFloat DecimalString.
From stdpp Require Import base option list gmap strings fin_maps.

Local Open Scope string_scope.
Local Open Scope list_scope.

(** ** Python floats *)

Module PyFloat.

Abbreviation float := spec_float.

Definition prec : Z := 53.
Definition emax : Z := 1024.

Definition nan : float := S754_nan.
Definition add : float -> float -> float := SFadd prec emax.
Definition sub : float -> float -> float := SFsub prec emax.
Definition mul : float -> float -> float := SFmul prec emax.
Definition div : float -> float -> float := SFdiv prec emax.

(** [a < b], [a <= b] and [a >= b]: false as soon as one side is NaN. *)
Definition ltb (a b : float) : bool := SFltb a b.
Definition leb (a b : float) : bool := SFleb a b.
Definition geb (a b : float) : bool := SFleb b a.

Definition is_nan (a : float) : bool :=
  match a with S754_nan => true | _ => false end.

(** The float nearest to [(-1)^s * num / den], ties to even: the division
    of the two integers is rounded once. *)
Definition of_ratio (s : bool) (num den : Z) : float :=
  match num, den with
  | Zpos n, Zpos d => div (S754_finite s n 0) (S754_finite false d 0)
  | Z0, Zpos _ => S754_zero s
  | _, _ => nan
  end.

(** The float nearest to [(-1)^s * M * 10^E], what a decimal literal or
    [float("...")] denotes. *)
Definition of_decimal (s : bool) (M E : Z) : float :=
  of_ratio s (M * 10 ^ Z.max E 0) (10 ^ Z.max (- E) 0).

Definition of_Z (z : Z) : float := of_decimal (z <? 0)%Z (Z.abs z) 0.

(** [m * 2^e * 10^d] rounded to the nearest integer, ties to even. *)
Definition scaled_nearest_even (m : positive) (e : Z) (d : Z) : Z :=
  let num := (Zpos m * 10 ^ d * 2 ^ Z.max e 0)%Z in
  let den := (2 ^ Z.max (- e) 0)%Z in
  let q := (num / den)%Z in
  let r := (num mod den)%Z in
  match (2 * r ?= den)%Z with
  | Lt => q
  | Gt => (q + 1)%Z
  | Eq => if Z.even q then q else (q + 1)%Z
  end.

(** [round(x)] with one argument: the nearest integer, ties to even; it
    raises on NaN and on the infinities. *)
Definition round_int (x : float) : option Z :=
  match x with
  | S754_zero _ => Some 0%Z
  | S754_finite s m e =>
      let n := scaled_nearest_even m e 0 in Some (if s then (- n)%Z else n)
  | _ => None
  end.

(** [round(x, ndigits)] for [ndigits >= 0]: the exact value of [x] is
    rounded to [ndigits] decimals, ties to even, and the decimal obtained is
    converted back to the nearest float.  NaN, the infinities and the zeros
    round to themselves, and the sign survives a rounding to zero. *)
Definition round_ndigits (x : float) (ndigits : nat) : float :=
  match x with
  | S754_finite s m e =>
      of_decimal s (scaled_nearest_even m e (Z.of_nat ndigits)) (- Z.of_nat ndigits)
  | _ => x
  end.

Definition decimal_of_Z (z : Z) : string :=
  NilZero.string_of_uint (N.to_uint (Z.to_N z)).

(** The digits of [0 <= n < 10^6], left-padded with zeros to six places. *)
Definition six_digits (n : Z) : string :=
  match decimal_of_Z (1000000 + n) with
  | String _ rest => rest
  | EmptyString => EmptyString
  end.

Definition fixed6 (s : bool) (n : Z) : string :=
  (if s then "-" else "") +:+ decimal_of_Z (n / 1000000) +:+ "." +:+ six_digits (n mod 1000000).

(** [f"{x:.6f}"]. *)
Definition format_6f (x : float) : string :=
  match x with
  | S754_nan => "nan"
  | S754_infinity s => if s then "-inf" else "inf"
  | S754_zero s => fixed6 s 0
  | S754_finite s m e => fixed6 s (scaled_nearest_even m e 6)
  end.

(** *** [float(s)] on a string

    A string of the model is the UTF-8 encoding of the Python string.
    [float] first maps every white space character outside ASCII to a
    space and every decimal digit outside ASCII to its ASCII digit (the
    tables are those of Unicode 14, which Python 3.11 carries), rejects any
    other character from code point 127 on, and parses the ASCII text
    obtained. *)

Definition byte_value (c : ascii) : Z := Z.of_nat (nat_of_ascii c).

Definition is_continuation (c : ascii) : bool :=
  (128 <=? byte_value c)%Z && (byte_value c <? 192)%Z.

Definition continuation_bits (c : ascii) : Z := (byte_value c - 128)%Z.

(** The code points of a UTF-8 text; [None] when the bytes are not the
    encoding of a text. *)
Fixpoint utf8_decode (l : list ascii) : option (list Z) :=
  match l with
  | [] => Some []
  | b0 :: t =>
      let n0 := byte_value b0 in
      if (n0 <? 128)%Z then cons n0 <$> utf8_decode t
      else if (194 <=? n0)%Z && (n0 <? 224)%Z then
        match t with
        | b1 :: t1 =>
            if is_continuation b1
            then cons ((n0 - 192) * 64 + continuation_bits b1)%Z <$> utf8_decode t1
            else None
        | _ => None
        end
      else if (224 <=? n0)%Z && (n0 <? 240)%Z then
        match t with
        | b1 :: b2 :: t2 =>
            let cp := ((n0 - 224) * 4096 + continuation_bits b1 * 64 + continuation_bits b2)%Z in
            if is_continuation b1 && is_continuation b2 && (2048 <=? cp)%Z
               && negb ((55296 <=? cp)%Z && (cp <=? 57343)%Z)
            then cons cp <$> utf8_decode t2
            else None
        | _ => None
        end
      else if (240 <=? n0)%Z && (n0 <? 245)%Z then
        match t with
        | b1 :: b2 :: b3 :: t3 =>
            let cp := ((n0 - 240) * 262144 + continuation_bits b1 * 4096
                       + continuation_bits b2 * 64 + continuation_bits b3)%Z in
            if is_continuation b1 && is_continuation b2 && is_continuation b3
               && (65536 <=? cp)%Z && (cp <=? 1114111)%Z
            then cons cp <$> utf8_decode t3
            else None
        | _ => None
        end
      else None
  end.

(** The code points of the digit zero of the decimal digit sets outside
    ASCII; the nine code points after each are its digits one to nine. *)
Definition decimal_zeros : list Z :=
  [1632; 1776; 1984; 2406; 2534; 2662; 2790; 2918; 3046; 3174; 3302; 3430; 3558;
   3664; 3792; 3872; 4160; 4240; 6112; 6160; 6470; 6608; 6784; 6800; 6992; 7088;
   7232; 7248; 42528; 43216; 43264; 43472; 43504; 43600; 44016; 65296; 66720;
   68912; 69734; 69872; 69942; 70096; 70384; 70736; 70864; 71248; 71360; 71472;
   71904; 72016; 72784; 73040; 73120; 92768; 92864; 93008; 120782; 120792;
   120802; 120812; 120822; 123200; 123632; 125264; 130032]%Z.

Definition unicode_decimal (cp : Z) : option Z :=
  (fun zero => cp - zero)%Z <$> List.find (fun zero => (zero <=? cp)%Z && (cp <? zero + 10)%Z) decimal_zeros.

(** The white space characters from code point 127 on. *)
Definition is_unicode_space (cp : Z) : bool :=
  bool_decide (cp ∈ [133; 160; 5760; 8232; 8233; 8239; 8287; 12288]%Z)
  || ((8192 <=? cp)%Z && (cp <=? 8202)%Z).

Definition to_ascii (cp : Z) : option ascii :=
  if (cp <? 127)%Z then Some (ascii_of_nat (Z.to_nat cp))
  else if is_unicode_space cp then Some " "%char
  else (fun d => ascii_of_nat (Z.to_nat (48 + d))) <$> unicode_decimal cp.

(** The ASCII text [float] parses; [None] when a character is rejected. *)
Definition ascii_text (str : string) : option (list ascii) :=
  cps ← utf8_decode (list_ascii_of_string str); mapM to_ascii cps.

Definition is_digit (c : ascii) : bool :=
  let n := nat_of_ascii c in (48 <=? n)%nat && (n <=? 57)%nat.

Definition digit_value (c : ascii) : Z := (Z.of_nat (nat_of_ascii c) - 48)%Z.

Definition is_space (c : ascii) : bool :=
  let n := nat_of_ascii c in ((9 <=? n)%nat && (n <=? 13)%nat) || (n =? 32)%nat.

Definition to_lower (c : ascii) : ascii :=
  let n := nat_of_ascii c in
  if (65 <=? n)%nat && (n <=? 90)%nat then ascii_of_nat (n + 32) else c.

Fixpoint lstrip (l : list ascii) : list ascii :=
  match l with
  | c :: t => if is_space c then lstrip t else l
  | [] => []
  end.

Definition strip (l : list ascii) : list ascii := rev (lstrip (rev (lstrip l))).

(** An underscore is accepted only between two digits, and dropped. *)
Fixpoint drop_underscores (prev : option ascii) (l : list ascii) : option (list ascii) :=
  match l with
  | [] => Some []
  | c :: t =>
      if Ascii.eqb c "_" then
        match prev, t with
        | Some p, n :: _ =>
            if is_digit p && is_digit n then drop_underscores (Some c) t else None
        | _, _ => None
        end
      else cons c <$> drop_underscores (Some c) t
  end.

Fixpoint span_digits (l : list ascii) : list ascii * list ascii :=
  match l with
  | c :: t =>
      if is_digit c then let '(d, r) := span_digits t in (c :: d, r) else ([], l)
  | [] => ([], [])
  end.

Definition digits_value (ds : list ascii) : Z :=
  fold_left (fun acc c => (10 * acc + digit_value c)%Z) ds 0%Z.

Definition take_sign (l : list ascii) : bool * list ascii :=
  match l with
  | c :: t =>
      if Ascii.eqb c "-" then (true, t)
      else if Ascii.eqb c "+" then (false, t) else (false, l)
  | [] => (false, [])
  end.

(** The exponent part: empty, or [e] or [E], an optional sign and at least
    one digit, with nothing left after it. *)
Definition parse_exponent (l : list ascii) : option Z :=
  match l with
  | [] => Some 0%Z
  | c :: t =>
      if Ascii.eqb (to_lower c) "e" then
        let '(s, t1) := take_sign t in
        match span_digits t1 with
        | ((_ :: _) as ds, []) => Some (if s then (- digits_value ds)%Z else digits_value ds)
        | _ => None
        end
      else None
  end.

Definition parse_decimal (s : bool) (l : list ascii) : option float :=
  let '(ip, r1) := span_digits l in
  let '(fp, r2) :=
    match r1 with
    | c :: t => if Ascii.eqb c "." then span_digits t else ([], r1)
    | [] => ([], [])
    end in
  match ip ++ fp with
  | [] => None
  | ds =>
      ex ← parse_exponent r2;
      Some (of_decimal s (digits_value ds) (ex - Z.of_nat (length fp)))
  end.

(** [float(s)]: [None] stands for the [ValueError] it raises. *)
Definition of_string (str : string) : option float :=
  text ← ascii_text str;
  body ← drop_underscores None (strip text);
  let '(s, r) := take_sign body in
  let name := string_of_list_ascii (map to_lower r) in
  if String.eqb name "inf" || String.eqb name "infinity" then Some (S754_infinity s)
  else if String.eqb name "nan" then Some nan
  else parse_decimal s r.

End PyFloat.

Import PyFloat.

(** ** Values, dictionaries and the store *)

(** What a cell of a [csv.DictReader] row holds: a string, or [None] where
    the line was shorter than the header. *)
Inductive pyval : Type :=
  | PNone
  | PStr (s : string).

(** A dictionary with string keys; a row of the table is one.  The entry
    the reader files under the key [None] for a line longer than the header
    is left out: no lookup by a column name reaches it. *)
Abbreviation row := (gmap string pyval).

(** References to dictionary objects, and the store that holds the objects. *)
Abbreviation loc := positive.
Abbreviation heap := (gmap positive (gmap string pyval)).

(** [d.get(k, dflt)]. *)
Definition dict_get (d : row) (k : string) (dflt : pyval) : pyval :=
  default dflt (d !! k).

(** Computations that read and update the store. *)
Definition M (A : Type) : Type := heap -> A * heap.

#[global] Instance M_ret : MRet M := fun A (x : A) (h : heap) => (x, h).

#[global] Instance M_bind : MBind M :=
  fun A B (f : A -> M B) (m : M A) (h : heap) => let '(x, h') := m h in f x h'.

Definition get_heap : M heap := fun h => (h, h).

(** A new dictionary object holding [d]; its reference is fresh. *)
Definition alloc (d : row) : M loc :=
  fun h => let l := fresh (dom h) in (l, <[l := d]> h).

(** [l[k] = v], in place. *)
Definition setitem (l : loc) (k : string) (v : pyval) : M unit :=
  fun h => (tt, alter (fun d : row => <[k := v]> d) l h).

(** ** The script *)

Module Args.

(** The namespace [parse_args] returns.  [cuts] is [None] when [--cuts] is
    absent and the list of its values otherwise, possibly empty; [output]
    is [None] when [--output] is absent. *)
Record t : Type := Build {
  input : string;
  cuts : option (list float);
  output : option string;
  mrr_col : string;
  time_col : string;
  min_rows : Z
}.

End Args.

(** The table [read_tsv] gets from the csv reader: the field names and one
    dictionary per data line.  The file named by [args.input] is taken as
    read; parsing its text is the csv module's part. *)
Record table : Type := Table {
  header : list string;
  rows : list row
}.

Fixpoint alloc_all (ds : list row) : M (list loc) :=
  match ds with
  | [] => mret []
  | d :: rest => l ← alloc d; ls ← alloc_all rest; mret (l :: ls)
  end.

(** [read_tsv]: every row is a dictionary object of its own. *)
Definition read_tsv (t : table) : M (list string * list loc) :=
  rs ← alloc_all (rows t); mret (header t, rs).

(** [float(v)]: a string is parsed, [None] raises [TypeError]. *)
Definition py_float (v : pyval) : option float :=
  match v with
  | PStr s => of_string s
  | PNone => None
  end.

(** [float(s)], and [float("nan")] when that raises. *)
Definition to_float_safe (v : pyval) : float :=
  match py_float v with
  | Some x => x
  | None => nan
  end.

(** The scan of [min(items, key=...)]: the candidate is replaced only by an
    item whose key is strictly less than the candidate's key. *)
Fixpoint min_scan {A : Type} (key : A -> float) (best : A) (best_key : float)
    (items : list A) : A :=
  match items with
  | [] => best
  | x :: rest =>
      let v := key x in
      if ltb v best_key then min_scan key x v rest else min_scan key best best_key rest
  end.

(** [min(items, key=key)]; [None] stands for the [ValueError] on an empty
    list. *)
Definition py_min {A : Type} (key : A -> float) (items : list A) : option A :=
  match items with
  | [] => None
  | x :: rest => Some (min_scan key x (key x) rest)
  end.

(** The parsed value of column [col] of the row at [r]. *)
Definition column_value (h : heap) (col : string) (r : loc) : float :=
  to_float_safe (dict_get (h !!! r) col (PStr "nan")).

(** The rows kept by the comprehension of [select_best_for_cut]. *)
Definition filtered_rows (h : heap) (rs : list loc) (mrr_col : string) (cut : float) : list loc :=
  List.filter (fun r => geb (column_value h mrr_col r) cut) rs.

Definition select_best_for_cut (h : heap) (rs : list loc) (mrr_col time_col : string)
    (cut : float) : option loc :=
  let filtered := filtered_rows h rs mrr_col cut in
  match filtered with
  | [] => None
  | _ :: _ => py_min (column_value h time_col) filtered
  end.

(** [range(0, n)]. *)
Definition range0 (n : Z) : list Z := map Z.of_nat (seq 0 (Z.to_nat n)).

Definition default_start : float := of_decimal false 39 (-2).
Definition default_end : float := of_decimal false 404 (-3).
Definition default_step : float := of_decimal false 1 (-3).

(** [int(round((end - start) / step)) + 1]; [round] cannot raise here, the
    quotient being finite. *)
Definition default_steps : Z :=
  default 0%Z (round_int (div (sub default_end default_start) default_step)) + 1.

Definition default_cuts : list float :=
  map (fun i => round_ndigits (add default_start (mul (of_Z i) default_step)) 6)
      (range0 default_steps).

(** Truth value of [args.cuts]: [None] and the empty list are false. *)
Definition truthy_list {A : Type} (o : option (list A)) : bool :=
  match o with
  | Some (_ :: _) => true
  | _ => false
  end.

(** [{k: '/' for k in header}]. *)
Definition slash_row (hdr : list string) : row :=
  fold_left (fun (d : row) k => <[k := PStr "/"]> d) hdr ∅.

(** The body of the loop over the cuts; it returns the dictionary appended
    to [results]. *)
Definition result_for_cut (a : Args.t) (hdr : list string) (rs : list loc)
    (cut : float) : M loc :=
  h ← get_heap;
  match select_best_for_cut h rs (Args.mrr_col a) (Args.time_col a) cut with
  | None =>
      empty_row ← alloc (slash_row hdr);
      _ ← setitem empty_row "mrr_cut" (PStr (format_6f cut));
      _ ← setitem empty_row (Args.time_col a) (PStr "/");
      mret empty_row
  | Some best =>
      out ← alloc (h !!! best);
      _ ← setitem out "mrr_cut" (PStr (format_6f cut));
      mret out
  end.

Fixpoint for_cuts (a : Args.t) (hdr : list string) (rs : list loc)
    (cs : list float) (results : list loc) : M (list loc) :=
  match cs with
  | [] => mret results
  | cut :: rest =>
      r ← result_for_cut a hdr rs cut;
      for_cuts a hdr rs rest (results ++ [r])
  end.

(** The csv writer writes [None] as the empty string. *)
Definition cell_text (v : pyval) : string :=
  match v with
  | PNone => ""
  | PStr s => s
  end.

(** [{k: r.get(k, "") for k in out_header}]. *)
Definition writer_dict (d : row) (out_header : list string) : row :=
  fold_left (fun (acc : row) k => <[k := dict_get d k (PStr "")]> acc) out_header ∅.

(** The fields [DictWriter.writerow] writes for a dictionary: one per field
    name, in the order of the field names. *)
Definition dict_to_list (fieldnames : list string) (d : row) : list string :=
  map (fun k => cell_text (dict_get d k (PStr ""))) fieldnames.

(** [DictWriter.writeheader]: the row [dict(zip(fieldnames, fieldnames))]. *)
Definition header_dict (fieldnames : list string) : row :=
  fold_left (fun (acc : row) k => <[k := PStr k]> acc) fieldnames ∅.

Inductive target : Type :=
  | Stdout
  | File (path : string).

(** [args.output] is used when it is given and not empty. *)
Definition out_target (a : Args.t) : target :=
  match Args.output a with
  | Some (String c p) => File (String c p)
  | _ => Stdout
  end.

(** How a run ends: [sys.exit] with a status after a message on the error
    stream, nothing being written; or the records handed to the csv writer
    of the target, the header record first.  Turning a record into a line
    of text is the csv module's part, and the target is taken to open. *)
Inductive outcome : Type :=
  | Exited (status : Z) (stderr : string)
  | Written (tgt : target) (records : list (list string)).

Definition newline : string := String (ascii_of_nat 10) EmptyString.

(** What [print(..., file=sys.stderr)] sends to the error stream. *)
Definition mrr_message (a : Args.t) : string :=
  "Error: MRR column '" +:+ Args.mrr_col a +:+ "' not found in input header" +:+ newline.

Definition time_message (a : Args.t) : string :=
  "Error: time column '" +:+ Args.time_col a +:+ "' not found in input header" +:+ newline.

Section Script.

(** [sorted(set(xs))] on floats.  With a NaN among [xs] its result depends
    on object identities, so it is left to the caller of the model. *)
Variable sorted_set : list float -> list float.

Definition determine_cuts (given : option (list float)) : list float :=
  if truthy_list given then sorted_set (default [] given) else default_cuts.

(** [main] after [read_tsv]: the two checks of the header, the loop over
    the cuts, then the header record and one record per result. *)
Definition process (a : Args.t) (hdr : list string) (rs : list loc) : M outcome :=
  if negb (bool_decide (Args.mrr_col a ∈ hdr)) then
    mret (Exited 2 (mrr_message a))
  else if negb (bool_decide (Args.time_col a ∈ hdr)) then
    mret (Exited 2 (time_message a))
  else
    results ← for_cuts a hdr rs (determine_cuts (Args.cuts a)) [];
    h ← get_heap;
    let out_header := "mrr_cut" :: hdr in
    mret (Written (out_target a)
            (dict_to_list out_header (header_dict out_header)
             :: map (fun r => dict_to_list out_header (writer_dict (h !!! r) out_header)) results)).

Definition main (a : Args.t) (t : table) : M outcome :=
  '(hdr, rs) ← read_tsv t; process a hdr rs.

End Script.

(** The dictionary appended to [results] for a cut, read off the store the
    loop body starts from. *)
Definition result_dict (a : Args.t) (hdr : list string) (h : heap) (rs : list loc)
    (cut : float) : row :=
  match select_best_for_cut h rs (Args.mrr_col a) (Args.time_col a) cut with
  | None =>
      <[Args.time_col a := PStr "/"]> (<["mrr_cut" := PStr (format_6f cut)]> (slash_row hdr))
  | Some best => <["mrr_cut" := PStr (format_6f cut)]> (h !!! best)
  end.

(** ** Sample inputs *)

Module Sample.

(** [sorted(set(xs))] when no element of [xs] is NaN: ascending, one
    representative (the first given) per value. *)
Fixpoint insert_sorted (x : float) (l : list float) : list float :=
  match l with
  | [] => [x]
  | y :: rest =>
      if ltb x y then x :: l
      else if SFeqb x y then l
      else y :: insert_sorted x rest
  end.

Definition sorted_distinct (xs : list float) : list float :=
  fold_left (fun acc x => insert_sorted x acc) xs [].

Definition args (given : option (list float)) : Args.t :=
  Args.Build "grid_results_m32.tsv" given None "mrr@10" "avg_query_time_ns" 1.

Definition config (k mrr time : string) : row :=
  <["k" := PStr k]> (<["avg_query_time_ns" := PStr time]> (<["mrr@10" := PStr mrr]> ∅)).

Definition columns : list string := ["k"; "avg_query_time_ns"; "mrr@10"].

(** MRR 0.30, 0.40, 0.41 with times 100, 50, 80. *)
Definition grid : table :=
  Table columns [config "a" "0.30" "100"; config "b" "0.40" "50"; config "c" "0.41" "80"].

(** The first row has a time that is not a number. *)
Definition grid_bad_time : table :=
  Table columns [config "a" "0.5" "abc"; config "b" "0.5" "10"].

(** The second row has a time that is not a number, the third the least
    time. *)
Definition grid_late_bad_time : table :=
  Table columns [config "a" "0.5" "10"; config "b" "0.5" "abc"; config "c" "0.5" "5"].


(** A table that already has a [mrr_cut] column, as the script writes. *)
Definition grid_with_cut : table :=
  Table ("mrr_cut" :: columns) [<["mrr_cut" := PStr "0.390000"]> (config "a" "0.30" "100")].

(** No row reaches the default cuts. *)
Definition grid_low : table :=
  Table columns [config "a" "0.30" "100"; config "b" "n/a" "50"].

(** Cuts given on the command line, one of them twice. *)
Definition given_cuts : option (list float) :=
  Some [of_decimal false 45 (-2); of_decimal false 4 (-1); of_decimal false 45 (-2)].

(** The rows and the store after [read_tsv]. *)
Definition loaded (t : table) : list loc * heap :=
  let '((_, rs), h) := read_tsv t ∅ in (rs, h).

End Sample.

(** * Properties *)

(** ** Order on floats *)

Section FloatOrder.

Lemma compare_cont_Eq (p q : positive) : Pos.compare_cont Eq p q = (p ?= q)%positive.
Proof. reflexivity. Qed.

Ltac order_cases :=
  repeat match goal with
  | H : context [(?a ?= ?b)%Z] |- _ => destruct (Z.compare_spec a b)
  | |- context [(?a ?= ?b)%Z] => destruct (Z.compare_spec a b)
  | H : context [(?p ?= ?q)%positive] |- _ => destruct (Pos.compare_spec p q)
  | |- context [(?p ?= ?q)%positive] => destruct (Pos.compare_spec p q)
  end;
  simpl in *; try congruence; try lia.

Ltac float_order :=
  unfold ltb, leb, SFltb, SFleb, SFcompare;
  repeat match goal with
  | x : float |- _ => destruct x as [[|]|[|]| |[|] ? ?]
  end;
  simpl; try congruence; intros;
  change PosDef.Pos.compare_cont with Pos.compare_cont in *;
  rewrite ?compare_cont_Eq in *; order_cases.

Lemma leb_ltb_trans (a b c : float) : leb a b = true -> ltb b c = true -> ltb a c = true.
Proof. float_order. Qed.

Lemma ltb_leb (a b : float) : ltb a b = true -> leb a b = true.
Proof. float_order. Qed.

Lemma ltb_not_leb (a b : float) : ltb a b = true -> leb b a = false.
Proof. float_order. Qed.

Lemma not_leb_not_ltb (a b : float) : leb a b = false -> ltb a b = false.
Proof.
  intros Hle. destruct (ltb a b) eqn:Hlt; [|done].
  apply ltb_leb in Hlt. congruence.
Qed.

Lemma ltb_irrefl (a : float) : ltb a a = false.
Proof.
  destruct (ltb a a) eqn:Hlt; [|done].
  pose proof (ltb_not_leb _ _ Hlt) as Hle. apply ltb_leb in Hlt. congruence.
Qed.

(** Two numbers are comparable. *)
Lemma not_ltb_leb (a b : float) :
  is_nan a = false -> is_nan b = false -> ltb a b = false -> leb b a = true.
Proof. unfold is_nan. float_order. Qed.

Lemma not_leb_ltb (a b : float) :
  is_nan a = false -> is_nan b = false -> leb a b = false -> ltb b a = true.
Proof. unfold is_nan. float_order. Qed.

Lemma leb_trans (a b c : float) : leb a b = true -> leb b c = true -> leb a c = true.
Proof. float_order. Qed.

Lemma leb_nan_l (a : float) : leb nan a = false.
Proof. reflexivity. Qed.


Lemma ltb_not_nan_l (a b : float) : ltb a b = true -> is_nan a = false.
Proof. by destruct a. Qed.

End FloatOrder.

(** ** The minimum scan *)

Section MinScan.

Context {A : Type} (key : A -> float).

(** The scan returns an item of the list it is run on, the candidate
    included, and splits that list around it: no item before it has a key
    less than or equal to its key, no item after it a key less than its
    key. *)
Lemma min_scan_split (before : list A) (best : A) (passed rest : list A) :
  (forall y, y ∈ before -> leb (key y) (key best) = false) ->
  (forall y, y ∈ passed -> ltb (key y) (key best) = false) ->
  exists pre post,
    before ++ best :: passed ++ rest = pre ++ min_scan key best (key best) rest :: post
    /\ (forall y, y ∈ pre -> leb (key y) (key (min_scan key best (key best) rest)) = false)
    /\ (forall y, y ∈ post -> ltb (key y) (key (min_scan key best (key best) rest)) = false).
Proof.
  revert before best passed.
  induction rest as [|x rest IH]; intros before best passed Hbefore Hpassed; simpl.
  - exists before, passed. by rewrite app_nil_r.
  - destruct (ltb (key x) (key best)) eqn:Hlt.
    + destruct (IH (before ++ best :: passed) x []) as (pre & post & Heq & Hpre & Hpost).
      * intros y [Hy | Hy]%elem_of_app.
        { destruct (leb (key y) (key x)) eqn:Hle; [|done].
          pose proof (leb_ltb_trans _ _ _ Hle Hlt) as Hyb.
          apply ltb_leb in Hyb. rewrite Hbefore in Hyb; done. }
        apply elem_of_cons in Hy as [-> | Hy].
        { by apply ltb_not_leb. }
        destruct (leb (key y) (key x)) eqn:Hle; [|done].
        pose proof (leb_ltb_trans _ _ _ Hle Hlt) as Hyb.
        rewrite Hpassed in Hyb; done.
      * intros y Hy. by apply elem_of_nil in Hy.
      * exists pre, post. split; [|done].
        rewrite <- Heq. simpl. by rewrite <- !app_assoc.
    + destruct (IH before best (passed ++ [x])) as (pre & post & Heq & Hpre & Hpost).
      * done.
      * intros y [Hy | Hy]%elem_of_app; [by apply Hpassed|].
        apply list_elem_of_singleton in Hy as ->. done.
      * exists pre, post. split; [|done].
        rewrite <- Heq. by rewrite <- app_assoc.
Qed.


(** A candidate whose key is a number is replaced by such candidates only. *)
Lemma min_scan_not_nan (best : A) (rest : list A) :
  is_nan (key best) = false -> is_nan (key (min_scan key best (key best) rest)) = false.
Proof.
  revert best. induction rest as [|x rest IH]; intros best Hbest; simpl; [done|].
  destruct (ltb (key x) (key best)) eqn:Hlt; [|by apply IH].
  apply IH. by apply ltb_not_nan_l in Hlt.
Qed.

End MinScan.

(** ** The best-row selector *)

Section Selector.

Lemma filter_split {A : Type} (f : A -> bool) (l a b : list A) (x : A) :
  List.filter f l = a ++ x :: b ->
  exists p q, l = p ++ x :: q /\ List.filter f p = a /\ List.filter f q = b.
Proof.
  revert a. induction l as [|y l IH]; intros a Heq; simpl in Heq.
  - by destruct a.
  - destruct (f y) eqn:Hy.
    + destruct a as [|a0 a]; simpl in Heq; injection Heq as -> Heq.
      * exists [], l. by rewrite <- Heq.
      * destruct (IH a Heq) as (p & q & -> & Hp & Hq).
        exists (a0 :: p), q. simpl. by rewrite Hy, Hp, Hq.
    + destruct (IH a Heq) as (p & q & -> & Hp & Hq).
      exists (y :: p), q. simpl. by rewrite Hy, Hp, Hq.
Qed.

Lemma elem_of_filter_bool {A : Type} (f : A -> bool) (l : list A) (x : A) :
  x ∈ List.filter f l <-> x ∈ l /\ f x = true.
Proof. rewrite !list_elem_of_In. apply filter_In. Qed.

Context (h : heap) (rs : list loc) (mrr_col time_col : string) (cut : float).

Lemma select_none :
  filtered_rows h rs mrr_col cut = [] ->
  select_best_for_cut h rs mrr_col time_col cut = None.
Proof. unfold select_best_for_cut. by intros ->. Qed.

Lemma select_some (first : loc) (rest : list loc) :
  filtered_rows h rs mrr_col cut = first :: rest ->
  select_best_for_cut h rs mrr_col time_col cut
  = Some (min_scan (column_value h time_col) first (column_value h time_col first) rest).
Proof. unfold select_best_for_cut. by intros ->. Qed.

(** No row qualifies exactly when the selector returns nothing. *)
Lemma select_none_iff :
  select_best_for_cut h rs mrr_col time_col cut = None
  <-> forall r, r ∈ rs -> geb (column_value h mrr_col r) cut = false.
Proof.
  destruct (filtered_rows h rs mrr_col cut) as [|first rest] eqn:Hf.
  - rewrite select_none by done. split; [intros _ r Hr|done].
    destruct (geb (column_value h mrr_col r) cut) eqn:Hq; [|done].
    assert (r ∈ filtered_rows h rs mrr_col cut) as Hin
      by (by apply elem_of_filter_bool).
    rewrite Hf in Hin. by apply elem_of_nil in Hin.
  - rewrite (select_some first rest) by done. split; [done|intros Hall].
    assert (first ∈ filtered_rows h rs mrr_col cut) as Hin
      by (rewrite Hf; apply list_elem_of_here).
    apply elem_of_filter_bool in Hin as [Hin Hq].
    rewrite (Hall _ Hin) in Hq. done.
Qed.

(** X9.  When the first qualifying row in input order has a time that is a
    number, the selector returns the row of least time among the qualifying
    rows whose time is a number, the first of them in input order: the row
    returned sits at a position [i] of the input, qualifies, its time is a
    number, less than or equal to the time of every qualifying row whose
    time is a number, and strictly less than the time of every such row
    before position [i]. *)
Theorem select_best_for_cut_least_time (first : loc) (rest : list loc) :
  filtered_rows h rs mrr_col cut = first :: rest ->
  is_nan (column_value h time_col first) = false ->
  exists best (i : nat),
    select_best_for_cut h rs mrr_col time_col cut = Some best
    /\ rs !! i = Some best
    /\ geb (column_value h mrr_col best) cut = true
    /\ is_nan (column_value h time_col best) = false
    /\ (forall (j : nat) y, rs !! j = Some y ->
          geb (column_value h mrr_col y) cut = true ->
          is_nan (column_value h time_col y) = false ->
          leb (column_value h time_col best) (column_value h time_col y) = true)
    /\ (forall (j : nat) y, (j < i)%nat -> rs !! j = Some y ->
          geb (column_value h mrr_col y) cut = true ->
          is_nan (column_value h time_col y) = false ->
          ltb (column_value h time_col best) (column_value h time_col y) = true).
Proof.
  intros Hf Hfirst. rewrite (select_some first rest) by done.
  pose proof (min_scan_not_nan (column_value h time_col) first rest Hfirst) as Hnum.
  destruct (min_scan_split (column_value h time_col) [] first [] rest)
    as (pre & post & Heq & Hpre & Hpost);
    [by intros y Hy%elem_of_nil | by intros y Hy%elem_of_nil |].
  set (best := min_scan (column_value h time_col) first (column_value h time_col first) rest)
    in *.
  simpl in Heq. rewrite <- Hf in Heq.
  destruct (filter_split _ _ _ _ _ Heq) as (p & q & Hrs & Hp & Hq).
  assert (best ∈ filtered_rows h rs mrr_col cut) as Hin
    by (rewrite Heq; apply elem_of_app; right; apply list_elem_of_here).
  apply elem_of_filter_bool in Hin as [_ Hqual].
  exists best, (length p). split_and!.
  - done.
  - rewrite Hrs. by apply list_lookup_middle.
  - done.
  - done.
  - intros j y Hj Hy Hy_num. apply not_ltb_leb; [done | done |].
    assert (y ∈ filtered_rows h rs mrr_col cut) as Hyin.
    { apply elem_of_filter_bool. split; [|done]. by eapply list_elem_of_lookup_2. }
    rewrite Heq in Hyin. apply elem_of_app in Hyin as [Hyin | Hyin].
    + apply not_leb_not_ltb. by apply Hpre.
    + apply elem_of_cons in Hyin as [-> | Hyin]; [apply ltb_irrefl | by apply Hpost].
  - intros j y Hlt Hj Hy Hy_num. apply not_leb_ltb; [done | done |].
    apply Hpre. rewrite <- Hp. apply elem_of_filter_bool. split; [|done].
    rewrite Hrs in Hj. rewrite lookup_app_l in Hj by done.
    by eapply list_elem_of_lookup_2.
Qed.



End Selector.

(** The example of the specification: with MRR 0.30, 0.40, 0.41 and times
    100, 50, 80, the cut 0.40 selects the second row. *)
Example select_second_of_grid :
  let '(rs, h) := Sample.loaded Sample.grid in
  select_best_for_cut h rs "mrr@10" "avg_query_time_ns" (of_decimal false 40 (-2)) = rs !! 1%nat.
Proof. vm_compute. reflexivity. Qed.

(** C1.  The code breaks the claim on [Sample.grid_bad_time] with the cut
    0.4: both rows qualify, the first has a time that is not a number, the
    second the time 10, and the row returned is the first, whose time is
    not less than or equal to the time of the second: the row of minimal
    time is not the one returned. *)
Lemma minimal_time_row_not_returned :
  (Sample.loaded Sample.grid_bad_time).1 = [1%positive; 2%positive]
  /\ geb (column_value (Sample.loaded Sample.grid_bad_time).2 "mrr@10" 1%positive)
         (of_decimal false 4 (-1)) = true
  /\ geb (column_value (Sample.loaded Sample.grid_bad_time).2 "mrr@10" 2%positive)
         (of_decimal false 4 (-1)) = true
  /\ column_value (Sample.loaded Sample.grid_bad_time).2 "avg_query_time_ns" 1%positive = nan
  /\ column_value (Sample.loaded Sample.grid_bad_time).2 "avg_query_time_ns" 2%positive = of_Z 10
  /\ select_best_for_cut (Sample.loaded Sample.grid_bad_time).2
        (Sample.loaded Sample.grid_bad_time).1 "mrr@10" "avg_query_time_ns"
        (of_decimal false 4 (-1)) = Some 1%positive
  /\ leb (column_value (Sample.loaded Sample.grid_bad_time).2 "avg_query_time_ns" 1%positive)
         (column_value (Sample.loaded Sample.grid_bad_time).2 "avg_query_time_ns" 2%positive)
     = false.
Proof. vm_compute. repeat split. Qed.

(** C2.  The code breaks the claim on [Sample.grid_bad_time] with the cut
    0.4: both rows qualify, the second has the time 10, and the row
    returned is the first, whose time is not a number. *)
Lemma nan_time_row_selected :
  ~ (forall (h : heap) (rs : list loc) (mrr_col time_col : string) (cut : float) (r other : loc),
       r ∈ rs -> other ∈ rs ->
       geb (column_value h mrr_col r) cut = true ->
       is_nan (column_value h time_col r) = true ->
       geb (column_value h mrr_col other) cut = true ->
       is_nan (column_value h time_col other) = false ->
       select_best_for_cut h rs mrr_col time_col cut <> Some r).
Proof.
  intros Hclaim.
  apply (Hclaim (Sample.loaded Sample.grid_bad_time).2 (Sample.loaded Sample.grid_bad_time).1
           "mrr@10" "avg_query_time_ns" (of_decimal false 4 (-1)) 1%positive 2%positive).
  - vm_compute. apply list_elem_of_here.
  - vm_compute. apply list_elem_of_further, list_elem_of_here.
  - vm_compute. reflexivity.
  - vm_compute. reflexivity.
  - vm_compute. reflexivity.
  - vm_compute. reflexivity.
  - vm_compute. reflexivity.
Qed.

Lemma select_best_for_cut_least_time_witness :
  exists best (i : nat),
    select_best_for_cut (Sample.loaded Sample.grid_late_bad_time).2
      (Sample.loaded Sample.grid_late_bad_time).1 "mrr@10" "avg_query_time_ns"
      (of_decimal false 4 (-1)) = Some best
    /\ (Sample.loaded Sample.grid_late_bad_time).1 !! i = Some best
    /\ geb (column_value (Sample.loaded Sample.grid_late_bad_time).2 "mrr@10" best)
           (of_decimal false 4 (-1)) = true
    /\ is_nan (column_value (Sample.loaded Sample.grid_late_bad_time).2 "avg_query_time_ns" best)
       = false
    /\ (forall (j : nat) y, (Sample.loaded Sample.grid_late_bad_time).1 !! j = Some y ->
          geb (column_value (Sample.loaded Sample.grid_late_bad_time).2 "mrr@10" y)
              (of_decimal false 4 (-1)) = true ->
          is_nan (column_value (Sample.loaded Sample.grid_late_bad_time).2 "avg_query_time_ns" y)
          = false ->
          leb (column_value (Sample.loaded Sample.grid_late_bad_time).2 "avg_query_time_ns" best)
              (column_value (Sample.loaded Sample.grid_late_bad_time).2 "avg_query_time_ns" y)
          = true)
    /\ (forall (j : nat) y, (j < i)%nat ->
          (Sample.loaded Sample.grid_late_bad_time).1 !! j = Some y ->
          geb (column_value (Sample.loaded Sample.grid_late_bad_time).2 "mrr@10" y)
              (of_decimal false 4 (-1)) = true ->
          is_nan (column_value (Sample.loaded Sample.grid_late_bad_time).2 "avg_query_time_ns" y)
          = false ->
          ltb (column_value (Sample.loaded Sample.grid_late_bad_time).2 "avg_query_time_ns" best)
              (column_value (Sample.loaded Sample.grid_late_bad_time).2 "avg_query_time_ns" y)
          = true).
Proof.
  apply (select_best_for_cut_least_time (Sample.loaded Sample.grid_late_bad_time).2
           (Sample.loaded Sample.grid_late_bad_time).1 "mrr@10" "avg_query_time_ns"
           (of_decimal false 4 (-1)) 1%positive [2%positive; 3%positive]);
    vm_compute; reflexivity.
Defined.

(** On [Sample.grid_late_bad_time] the row returned is the third: the one of
    least time, the row whose time is not a number being passed over. *)
Example select_third_of_grid_late_bad_time :
  select_best_for_cut (Sample.loaded Sample.grid_late_bad_time).2
    (Sample.loaded Sample.grid_late_bad_time).1 "mrr@10" "avg_query_time_ns"
    (of_decimal false 4 (-1)) = Some 3%positive.
Proof. vm_compute. reflexivity. Qed.


(** ** Dictionaries built key by key *)

Section Dicts.

Lemma fold_insert_lookup (f : string -> pyval) (l : list string) (d : row) (k : string) :
  fold_left (fun (acc : row) x => <[x := f x]> acc) l d !! k
  = if decide (k ∈ l) then Some (f k) else d !! k.
Proof.
  revert d. induction l as [|x l IH]; intros d; cbn [fold_left].
  - destruct (decide (k ∈ [])) as [Hin%elem_of_nil|]; done.
  - rewrite IH. destruct (decide (k ∈ l)) as [Hin | Hnin].
    + by rewrite decide_True by by apply list_elem_of_further.
    + destruct (decide (k = x)) as [-> | Hne].
      * rewrite decide_True by apply list_elem_of_here. by rewrite lookup_insert_eq.
      * rewrite decide_False by (rewrite elem_of_cons; tauto).
        by rewrite lookup_insert_ne.
Qed.

Lemma slash_row_lookup (hdr : list string) (k : string) :
  slash_row hdr !! k = if decide (k ∈ hdr) then Some (PStr "/") else None.
Proof. unfold slash_row. by rewrite fold_insert_lookup, lookup_empty. Qed.

(** The dictionary the loop of [main] rebuilds before [writerow] gives the
    same fields as the result it is rebuilt from. *)
Lemma dict_to_list_writer_dict (out_header : list string) (d : row) :
  dict_to_list out_header (writer_dict d out_header)
  = map (fun k => cell_text (dict_get d k (PStr ""))) out_header.
Proof.
  unfold dict_to_list. apply map_ext_in. intros k Hk%list_elem_of_In.
  unfold writer_dict, dict_get at 1.
  rewrite (fold_insert_lookup (fun k => dict_get d k (PStr ""))).
  by rewrite decide_True.
Qed.

(** [writeheader] writes the field names themselves. *)
Lemma dict_to_list_header_dict (fieldnames : list string) :
  dict_to_list fieldnames (header_dict fieldnames) = fieldnames.
Proof.
  unfold dict_to_list. transitivity (map id fieldnames); [|apply map_id].
  apply map_ext_in. intros k Hk%list_elem_of_In.
  unfold header_dict, dict_get. rewrite (fold_insert_lookup PStr).
  by rewrite decide_True.
Qed.

End Dicts.

(** ** The store *)

Section Store.

Lemma alloc_all_run (ds : list row) (h : heap) :
  exists ls h',
    alloc_all ds h = (ls, h')
    /\ Forall2 (fun l d => h' !! l = Some d) ls ds
    /\ (forall l, l ∈ dom h -> h' !! l = h !! l)
    /\ (forall l, l ∈ ls -> l ∉ dom h).
Proof.
  revert h. induction ds as [|d ds IH]; intros h; simpl.
  - exists [], h. split_and!; [done | constructor | done |].
    by intros l Hl%elem_of_nil.
  - unfold mbind, M_bind, alloc. cbn zeta beta iota.
    destruct (IH (<[fresh (dom h) := d]> h)) as (ls & h' & Hrun & Hall & Hframe & Hfresh).
    rewrite Hrun. exists (fresh (dom h) :: ls), h'.
    assert (fresh (dom h) ∉ dom h) as Hnew by apply is_fresh.
    split_and!; [done | | |].
    + constructor; [|done].
      rewrite Hframe by (rewrite dom_insert_L; set_solver).
      by rewrite lookup_insert_eq.
    + intros l Hl. rewrite Hframe by (rewrite dom_insert_L; set_solver).
      rewrite lookup_insert_ne; [done|]. intros Heq. apply Hnew. by rewrite Heq.
    + intros l [-> | Hl]%elem_of_cons; [done|].
      apply Hfresh in Hl. rewrite dom_insert_L in Hl. set_solver.
Qed.

Lemma min_scan_ext {A : Type} (key1 key2 : A -> float) (best : A) (k : float)
    (rest : list A) :
  (forall x, x ∈ rest -> key1 x = key2 x) ->
  min_scan key1 best k rest = min_scan key2 best k rest.
Proof.
  revert best k. induction rest as [|x rest IH]; intros best k Hext; simpl; [done|].
  rewrite (Hext x) by apply list_elem_of_here.
  destruct (ltb (key2 x) k); apply IH; intros y Hy; apply Hext;
    by apply list_elem_of_further.
Qed.

Lemma min_scan_elem {A : Type} (key : A -> float) (best : A) (k : float) (rest : list A) :
  min_scan key best k rest ∈ best :: rest.
Proof.
  revert best k. induction rest as [|x rest IH]; intros best k; simpl.
  - apply list_elem_of_here.
  - destruct (ltb (key x) k).
    + apply list_elem_of_further, IH.
    + specialize (IH best k). apply elem_of_cons in IH as [-> | IH].
      * apply list_elem_of_here.
      * by do 2 apply list_elem_of_further.
Qed.

Lemma select_elem (h : heap) (rs : list loc) (mrr_col time_col : string) (cut : float)
    (best : loc) :
  select_best_for_cut h rs mrr_col time_col cut = Some best -> best ∈ rs.
Proof.
  unfold select_best_for_cut.
  destruct (filtered_rows h rs mrr_col cut) as [|first rest] eqn:Hf; [done|].
  simpl. intros [= <-].
  pose proof (min_scan_elem (column_value h time_col) first
                (column_value h time_col first) rest) as Hin.
  rewrite <- Hf in Hin. by apply elem_of_filter_bool in Hin as [Hin _].
Qed.

(** The selector reads the dictionaries of the rows and nothing else. *)
Lemma select_ext (h1 h2 : heap) (rs : list loc) (mrr_col time_col : string) (cut : float) :
  (forall r, r ∈ rs -> h1 !!! r = h2 !!! r) ->
  select_best_for_cut h1 rs mrr_col time_col cut
  = select_best_for_cut h2 rs mrr_col time_col cut.
Proof.
  intros Hext.
  assert (forall col r, r ∈ rs -> column_value h1 col r = column_value h2 col r) as Hcol.
  { intros col r Hr. unfold column_value. by rewrite Hext. }
  assert (filtered_rows h1 rs mrr_col cut = filtered_rows h2 rs mrr_col cut) as Hf.
  { unfold filtered_rows. apply filter_ext_in. intros r Hr%list_elem_of_In.
    by rewrite Hcol. }
  unfold select_best_for_cut. rewrite Hf.
  destruct (filtered_rows h2 rs mrr_col cut) as [|first rest] eqn:Hf2; [done|].
  assert (forall x, x ∈ first :: rest -> column_value h1 time_col x = column_value h2 time_col x)
    as Hkey.
  { intros x Hx. apply Hcol. rewrite <- Hf2 in Hx.
    by apply elem_of_filter_bool in Hx as [Hx _]. }
  simpl. f_equal. rewrite (Hkey first) by apply list_elem_of_here.
  apply min_scan_ext. intros x Hx. apply Hkey. by apply list_elem_of_further.
Qed.

Lemma result_dict_ext (a : Args.t) (hdr : list string) (h1 h2 : heap) (rs : list loc)
    (cut : float) :
  (forall r, r ∈ rs -> h1 !!! r = h2 !!! r) ->
  result_dict a hdr h1 rs cut = result_dict a hdr h2 rs cut.
Proof.
  intros Hext. unfold result_dict. rewrite (select_ext h1 h2) by done.
  destruct (select_best_for_cut h2 rs _ _ cut) as [best|] eqn:Hsel; [|done].
  rewrite Hext; [done|]. by eapply select_elem.
Qed.

(** One turn of the loop allocates one dictionary and leaves every other
    object as it was. *)
Lemma result_for_cut_run (a : Args.t) (hdr : list string) (rs : list loc) (cut : float)
    (h : heap) :
  result_for_cut a hdr rs cut h
  = (fresh (dom h), <[fresh (dom h) := result_dict a hdr h rs cut]> h).
Proof.
  unfold result_for_cut, result_dict, mbind, M_bind, get_heap.
  destruct (select_best_for_cut h rs _ _ cut) as [best|]; simpl;
    unfold alloc, setitem, mret, M_ret; by rewrite ?alter_insert_eq.
Qed.

Lemma for_cuts_run (a : Args.t) (hdr : list string) (rs : list loc) (cs : list float)
    (acc : list loc) (h : heap) :
  (forall r, r ∈ rs -> r ∈ dom h) ->
  exists new h',
    for_cuts a hdr rs cs acc h = (acc ++ new, h')
    /\ Forall2 (fun r cut => h' !! r = Some (result_dict a hdr h rs cut)) new cs
    /\ (forall l, l ∈ dom h -> h' !! l = h !! l)
    /\ (forall r, r ∈ new -> r ∉ dom h).
Proof.
  revert acc h. induction cs as [|cut cs IH]; intros acc h Hrs; simpl.
  - exists [], h. rewrite app_nil_r. split_and!; [done | constructor | done |].
    by intros r Hr%elem_of_nil.
  - unfold mbind, M_bind. rewrite result_for_cut_run.
    set (l := fresh (dom h)). set (d := result_dict a hdr h rs cut).
    assert (l ∉ dom h) as Hnew by apply is_fresh.
    destruct (IH (acc ++ [l]) (<[l := d]> h)) as (new & h' & Hrun & Hall & Hframe & Hfresh).
    { intros r Hr. rewrite dom_insert_L. apply Hrs in Hr. set_solver. }
    rewrite Hrun. exists (l :: new), h'.
    split_and!.
    + by rewrite <- app_assoc.
    + constructor.
      * rewrite Hframe by (rewrite dom_insert_L; set_solver).
        by rewrite lookup_insert_eq.
      * eapply Forall2_impl; [exact Hall|]. intros r c Hr. simpl in Hr.
        rewrite Hr. f_equal. apply result_dict_ext. intros r' Hr'.
        rewrite lookup_total_insert_ne; [done|].
        intros Heq. apply Hnew. rewrite Heq. by apply Hrs.
    + intros l' Hl'. rewrite Hframe by (rewrite dom_insert_L; set_solver).
      rewrite lookup_insert_ne; [done|]. intros Heq. apply Hnew. by rewrite Heq.
    + intros r [-> | Hr]%elem_of_cons; [done|].
      apply Hfresh in Hr. rewrite dom_insert_L in Hr. set_solver.
Qed.

End Store.

(** ** The cut generator *)

(** C3 as stated fails: the default sequence does not have 16 values. *)
Lemma default_cuts_not_sixteen : length default_cuts <> 16%nat.
Proof. vm_compute. discriminate. Qed.

(** C3, amended.  Without [--cuts] the cut generator produces exactly 15
    values, the floats of 0.390, 0.391, ..., 0.404: the inclusive arithmetic
    sequence from 0.39 to 0.404 with step 0.001, each value rounded to 6
    decimal places; their labels are 0.390000, 0.391000, ..., 0.404000.
    The quotient [(end - start) / step] rounds to 14, which makes 15
    steps. *)
Theorem default_cuts_fifteen_values :
  (forall sorted_set, determine_cuts sorted_set None = default_cuts)
  /\ round_int (div (sub default_end default_start) default_step) = Some 14%Z
  /\ length default_cuts = 15%nat
  /\ default_cuts = map (fun k => of_decimal false (390 + k) (-3)) (range0 15)
  /\ map format_6f default_cuts
     = ["0.390000"; "0.391000"; "0.392000"; "0.393000"; "0.394000";
        "0.395000"; "0.396000"; "0.397000"; "0.398000"; "0.399000";
        "0.400000"; "0.401000"; "0.402000"; "0.403000"; "0.404000"].
Proof. split_and!; [done | | | |]; vm_compute; reflexivity. Qed.

(** ** The whole run *)

Section Run.

Context (sorted_set : list float -> list float).

(** C9.  An empty [--cuts] list is false like an absent one: the default
    sequence is generated, and the run is the run without [--cuts]. *)
Theorem empty_cuts_list_uses_default (input : string) (output : option string)
    (mrr_col time_col : string) (min_rows : Z) (t : table) :
  determine_cuts sorted_set (Some []) = default_cuts
  /\ main sorted_set (Args.Build input (Some []) output mrr_col time_col min_rows) t
     = main sorted_set (Args.Build input None output mrr_col time_col min_rows) t.
Proof. split; reflexivity. Qed.

Context (a : Args.t).

Lemma process_missing (hdr : list string) (rs : list loc) (h : heap) :
  Args.mrr_col a ∉ hdr \/ Args.time_col a ∉ hdr ->
  process sorted_set a hdr rs h
  = (Exited 2 (if bool_decide (Args.mrr_col a ∈ hdr) then time_message a else mrr_message a), h).
Proof.
  intros Hmiss. unfold process.
  destruct (bool_decide (Args.mrr_col a ∈ hdr)) eqn:Hm; cbn [negb]; [|done].
  destruct (bool_decide (Args.time_col a ∈ hdr)) eqn:Ht; cbn [negb]; [|done].
  apply bool_decide_eq_true in Hm, Ht. tauto.
Qed.

(** With both columns in the header, the run writes the header record and
    one record per cut, read off the dictionary of that cut. *)
Lemma process_written (hdr : list string) (rs : list loc) (h : heap) :
  Args.mrr_col a ∈ hdr -> Args.time_col a ∈ hdr ->
  (forall r, r ∈ rs -> r ∈ dom h) ->
  exists h',
    process sorted_set a hdr rs h
    = (Written (out_target a)
         (("mrr_cut" :: hdr)
          :: map (fun cut => map (fun k => cell_text (dict_get (result_dict a hdr h rs cut) k (PStr "")))
                              ("mrr_cut" :: hdr))
                 (determine_cuts sorted_set (Args.cuts a))), h')
    /\ (forall l, l ∈ dom h -> h' !! l = h !! l).
Proof.
  intros Hm Ht Hrs. unfold process.
  rewrite !bool_decide_eq_true_2 by done. cbn [negb].
  destruct (for_cuts_run a hdr rs (determine_cuts sorted_set (Args.cuts a)) [] h Hrs)
    as (new & h' & Hrun & Hall & Hframe & _).
  unfold mbind, M_bind, get_heap, mret, M_ret. rewrite Hrun. cbn [app].
  exists h'. split; [|done].
  rewrite (dict_to_list_header_dict ("mrr_cut" :: hdr)). do 3 f_equal.
  clear Hrun. induction Hall as [|r cut new cs Hr Hall IH]; cbn [map]; [done|].
  rewrite IH. f_equal.
  rewrite (lookup_total_correct _ _ _ Hr).
  apply (dict_to_list_writer_dict ("mrr_cut" :: hdr)).
Qed.

Lemma read_tsv_run (t : table) (h : heap) :
  exists rs h1,
    read_tsv t h = ((header t, rs), h1)
    /\ Forall2 (fun l d => h1 !! l = Some d) rs (rows t)
    /\ (forall l, l ∈ dom h -> h1 !! l = h !! l)
    /\ (forall l, l ∈ rs -> l ∉ dom h).
Proof.
  destruct (alloc_all_run (rows t) h) as (rs & h1 & Hrun & Hall & Hframe & Hfresh).
  exists rs, h1. unfold read_tsv, mbind, M_bind. by rewrite Hrun.
Qed.

Lemma loaded_in_dom (rs : list loc) (ds : list row) (h1 : heap) :
  Forall2 (fun l d => h1 !! l = Some d) rs ds -> forall r, r ∈ rs -> r ∈ dom h1.
Proof.
  intros Hall r Hr. apply list_elem_of_lookup_1 in Hr as [i Hi].
  destruct (Forall2_lookup_l _ _ _ _ _ Hall Hi) as (d & _ & Hd).
  by eapply elem_of_dom_2.
Qed.

Lemma main_missing (t : table) (h : heap) :
  Args.mrr_col a ∉ header t \/ Args.time_col a ∉ header t ->
  main sorted_set a t h
  = (Exited 2 (if bool_decide (Args.mrr_col a ∈ header t) then time_message a else mrr_message a),
     (read_tsv t h).2).
Proof.
  intros Hmiss. destruct (read_tsv_run t h) as (rs & h1 & Hread & _).
  unfold main, mbind, M_bind. rewrite Hread. cbn [snd]. by apply process_missing.
Qed.

Lemma main_written (t : table) (h : heap) :
  Args.mrr_col a ∈ header t -> Args.time_col a ∈ header t ->
  exists rs h1 h2,
    read_tsv t h = ((header t, rs), h1)
    /\ Forall2 (fun l d => h1 !! l = Some d) rs (rows t)
    /\ main sorted_set a t h
       = (Written (out_target a)
            (("mrr_cut" :: header t)
             :: map (fun cut =>
                       map (fun k => cell_text (dict_get (result_dict a (header t) h1 rs cut) k (PStr "")))
                           ("mrr_cut" :: header t))
                    (determine_cuts sorted_set (Args.cuts a))), h2)
    /\ (forall l, l ∈ dom h1 -> h2 !! l = h1 !! l).
Proof.
  intros Hm Ht. destruct (read_tsv_run t h) as (rs & h1 & Hread & Hall & _).
  destruct (process_written (header t) rs h1 Hm Ht (loaded_in_dom _ _ _ Hall))
    as (h2 & Hrun & Hframe).
  exists rs, h1, h2. split_and!; [done | done | | done].
  unfold main, mbind, M_bind. rewrite Hread. exact Hrun.
Qed.

(** C4.  With both columns in the header, the records written are the
    header record and the data rows, and there are as many data rows as
    cuts evaluated. *)
Theorem output_rows_match_cuts (t : table) (h : heap) :
  Args.mrr_col a ∈ header t -> Args.time_col a ∈ header t ->
  exists out_header data,
    (main sorted_set a t h).1 = Written (out_target a) (out_header :: data)
    /\ length data = length (determine_cuts sorted_set (Args.cuts a)).
Proof.
  intros Hm Ht. destruct (main_written t h Hm Ht) as (rs & h1 & h2 & _ & _ & Hrun & _).
  rewrite Hrun. do 2 eexists. split; [done|]. by rewrite length_map.
Qed.

(** C5.  When the MRR column or the time column is not in the header, the
    run ends with exit status 2 after one message on the error stream, the
    message about the MRR column when that one is missing; no record is
    written, and the store is the one [read_tsv] left, no cut having been
    evaluated. *)
Theorem missing_column_exits_with_status_2 (t : table) (h : heap) :
  Args.mrr_col a ∉ header t \/ Args.time_col a ∉ header t ->
  main sorted_set a t h
  = (Exited 2 (if bool_decide (Args.mrr_col a ∈ header t)
               then "Error: time column '" +:+ Args.time_col a
                    +:+ "' not found in input header" +:+ newline
               else "Error: MRR column '" +:+ Args.mrr_col a
                    +:+ "' not found in input header" +:+ newline),
     (read_tsv t h).2).
Proof. apply main_missing. Qed.

(** C7.  The header record written is [mrr_cut] followed by the columns of
    the input header in their order. *)
Theorem output_header_prepends_mrr_cut (t : table) (h : heap) :
  Args.mrr_col a ∈ header t -> Args.time_col a ∈ header t ->
  exists data,
    (main sorted_set a t h).1 = Written (out_target a) (("mrr_cut" :: header t) :: data).
Proof.
  intros Hm Ht. destruct (main_written t h Hm Ht) as (rs & h1 & h2 & _ & _ & Hrun & _).
  rewrite Hrun. by eexists.
Qed.

Lemma lookup_map {A B : Type} (f : A -> B) (l : list A) (i : nat) :
  map f l !! i = f <$> l !! i.
Proof. apply (list_lookup_fmap f l i). Qed.

Lemma no_row_qualifies (t : table) (rs : list loc) (h1 : heap) (cut : float) :
  Forall2 (fun l d => h1 !! l = Some d) rs (rows t) ->
  Forall (fun d => geb (to_float_safe (dict_get d (Args.mrr_col a) (PStr "nan"))) cut = false)
         (rows t) ->
  select_best_for_cut h1 rs (Args.mrr_col a) (Args.time_col a) cut = None.
Proof.
  intros Hall Hnone. apply select_none_iff. intros r Hr.
  apply list_elem_of_lookup_1 in Hr as [i Hi].
  destruct (Forall2_lookup_l _ _ _ _ _ Hall Hi) as (d & Hd & Hr).
  unfold column_value. rewrite (lookup_total_correct _ _ _ Hr).
  rewrite Forall_forall in Hnone. apply Hnone. by eapply list_elem_of_lookup_2.
Qed.

(** C6, amended.  For a cut that no row qualifies for, the data row written
    for that cut has one field for [mrr_cut] and one per header column;
    every header column other than one named [mrr_cut] holds the marker,
    the time column holds the marker, and the [mrr_cut] field holds the
    cut formatted to 6 decimal places unless the time column is itself
    named [mrr_cut]. *)
Theorem placeholder_row_for_unmatched_cut (t : table) (h : heap) (i : nat) (cut : float) :
  Args.mrr_col a ∈ header t -> Args.time_col a ∈ header t ->
  determine_cuts sorted_set (Args.cuts a) !! i = Some cut ->
  Forall (fun d => geb (to_float_safe (dict_get d (Args.mrr_col a) (PStr "nan"))) cut = false)
         (rows t) ->
  exists data rec,
    (main sorted_set a t h).1 = Written (out_target a) (("mrr_cut" :: header t) :: data)
    /\ data !! i = Some rec
    /\ length rec = S (length (header t))
    /\ (Args.time_col a <> "mrr_cut" -> rec !! 0%nat = Some (format_6f cut))
    /\ (forall (j : nat) k, header t !! j = Some k ->
          k <> "mrr_cut" \/ k = Args.time_col a -> rec !! S j = Some "/").
Proof.
  intros Hm Ht Hcut Hnone.
  destruct (main_written t h Hm Ht) as (rs & h1 & h2 & _ & Hall & Hrun & _).
  rewrite Hrun. do 2 eexists. split; [done|].
  rewrite lookup_map, Hcut. split; [done|].
  unfold result_dict. rewrite (no_row_qualifies t rs h1 cut Hall Hnone).
  rewrite length_map. split; [done|]. split.
  - intros Hne. cbn [map lookup list_lookup]. f_equal.
    unfold dict_get. rewrite lookup_insert_ne by done. by rewrite lookup_insert_eq.
  - intros j k Hj Hk. cbn [map]. rewrite lookup_cons, lookup_map, Hj.
    cbn [fmap option_fmap option_map]. f_equal.
    unfold dict_get. destruct (decide (k = Args.time_col a)) as [-> | Hne].
    + by rewrite lookup_insert_eq.
    + destruct Hk as [Hk | Hk]; [|done].
      rewrite !lookup_insert_ne by done. rewrite slash_row_lookup.
      rewrite decide_True; [done|]. by eapply list_elem_of_lookup_2.
Qed.

(** C8.  The dictionaries of the loaded rows are never written to: after
    the run every one of them holds what it held when loaded, and the
    dictionaries the loop appends to [results] are objects of their own,
    none of them a loaded row. *)
Theorem input_rows_never_mutated (t : table) (h : heap) :
  exists rs h1 out h2,
    read_tsv t h = ((header t, rs), h1)
    /\ main sorted_set a t h = (out, h2)
    /\ Forall2 (fun l d => h1 !! l = Some d /\ h2 !! l = Some d) rs (rows t)
    /\ (forall cs r, r ∈ (for_cuts a (header t) rs cs [] h1).1 -> r ∉ rs).
Proof.
  destruct (read_tsv_run t h) as (rs & h1 & Hread & Hall & _).
  pose proof (loaded_in_dom _ _ _ Hall) as Hdom.
  assert (forall cs r, r ∈ (for_cuts a (header t) rs cs [] h1).1 -> r ∉ rs) as Hcopy.
  { intros cs r Hr Hin.
    destruct (for_cuts_run a (header t) rs cs [] h1 Hdom) as (new & h' & Hrun & _ & _ & Hfresh).
    rewrite Hrun in Hr. by apply (Hfresh r), Hdom. }
  assert ((Args.mrr_col a ∈ header t /\ Args.time_col a ∈ header t)
          \/ (Args.mrr_col a ∉ header t \/ Args.time_col a ∉ header t)) as [[Hm Ht] | Hmiss].
  { destruct (decide (Args.mrr_col a ∈ header t)); [|tauto].
    destruct (decide (Args.time_col a ∈ header t)); tauto. }
  - destruct (main_written t h Hm Ht) as (rs' & h1' & h2 & Hread' & _ & Hrun & Hframe).
    rewrite Hread in Hread'. injection Hread' as <- <-.
    eexists rs, h1, _, h2. split_and!; [done | exact Hrun | | done].
    eapply Forall2_impl; [exact Hall|]. intros l d Hl. cbn beta in Hl. split; [done|].
    rewrite Hframe; [done|]. by eapply elem_of_dom_2.
  - eexists rs, h1, _, h1. split_and!; [done | | | done].
    + rewrite main_missing by done. by rewrite Hread.
    + eapply Forall2_impl; [exact Hall|]. by intros l d Hl.
Qed.

End Run.

(** ** The properties on the sample inputs *)

(** Membership in a given list of names, by evaluation. *)
Ltac by_evaluation :=
  match goal with
  | |- ?x ∉ ?l => apply (bool_decide_eq_false_1 (x ∈ l)); vm_compute; reflexivity
  | |- ?P => apply (bool_decide_eq_true_1 P); vm_compute; reflexivity
  end.

Lemma output_rows_match_cuts_witness :
  exists out_header data,
    (main Sample.sorted_distinct (Sample.args Sample.given_cuts) Sample.grid ∅).1
    = Written (out_target (Sample.args Sample.given_cuts)) (out_header :: data)
    /\ length data
       = length (determine_cuts Sample.sorted_distinct (Args.cuts (Sample.args Sample.given_cuts))).
Proof.
  apply (output_rows_match_cuts Sample.sorted_distinct (Sample.args Sample.given_cuts)
           Sample.grid ∅); by_evaluation.
Defined.

Lemma missing_column_exits_with_status_2_witness :
  main Sample.sorted_distinct (Sample.args None) (Table ["k"; "mrr@10"] []) ∅
  = (Exited 2 ("Error: time column 'avg_query_time_ns' not found in input header" +:+ newline),
     ∅).
Proof.
  apply (missing_column_exits_with_status_2 Sample.sorted_distinct (Sample.args None)
           (Table ["k"; "mrr@10"] []) ∅).
  right. by_evaluation.
Defined.

Lemma output_header_prepends_mrr_cut_witness :
  exists data,
    (main Sample.sorted_distinct (Sample.args None) Sample.grid ∅).1
    = Written (out_target (Sample.args None)) (("mrr_cut" :: header Sample.grid) :: data).
Proof.
  apply (output_header_prepends_mrr_cut Sample.sorted_distinct (Sample.args None)
           Sample.grid ∅); by_evaluation.
Defined.

(** C6 as stated fails: [Sample.grid_with_cut] has a column named
    [mrr_cut], no row of it reaches the cut 0.39, and in the row written for
    that cut the field of that header column holds the cut label, not the
    marker. *)
Lemma placeholder_mrr_cut_column_not_marker :
  ~ (forall (sorted_set : list float -> list float) (a : Args.t) (t : table) (h : heap)
            (i : nat) (cut : float),
       Args.mrr_col a ∈ header t -> Args.time_col a ∈ header t ->
       determine_cuts sorted_set (Args.cuts a) !! i = Some cut ->
       Forall (fun d => geb (to_float_safe (dict_get d (Args.mrr_col a) (PStr "nan"))) cut = false)
              (rows t) ->
       exists data rec,
         (main sorted_set a t h).1 = Written (out_target a) (("mrr_cut" :: header t) :: data)
         /\ data !! i = Some rec
         /\ rec !! 0%nat = Some (format_6f cut)
         /\ (forall (j : nat) k, header t !! j = Some k -> rec !! S j = Some "/")).
Proof.
  intros Hclaim.
  destruct (Hclaim Sample.sorted_distinct (Sample.args None) Sample.grid_with_cut ∅
              0%nat (of_decimal false 39 (-2)))
    as (data & rec & Hrun & Hrec & _ & Hall).
  - by_evaluation.
  - by_evaluation.
  - vm_compute. reflexivity.
  - repeat constructor.
  - vm_compute in Hrun. injection Hrun as <-.
    injection Hrec as <-.
    specialize (Hall 0%nat "mrr_cut" eq_refl). discriminate Hall.
Qed.

Lemma placeholder_row_for_unmatched_cut_witness :
  exists data rec,
    (main Sample.sorted_distinct (Sample.args None) Sample.grid_low ∅).1
    = Written (out_target (Sample.args None)) (("mrr_cut" :: header Sample.grid_low) :: data)
    /\ data !! 14%nat = Some rec
    /\ length rec = S (length (header Sample.grid_low))
    /\ (Args.time_col (Sample.args None) <> "mrr_cut"
        -> rec !! 0%nat = Some (format_6f (of_decimal false 404 (-3))))
    /\ (forall (j : nat) k, header Sample.grid_low !! j = Some k ->
          k <> "mrr_cut" \/ k = Args.time_col (Sample.args None) -> rec !! S j = Some "/").
Proof.
  apply (placeholder_row_for_unmatched_cut Sample.sorted_distinct (Sample.args None)
           Sample.grid_low ∅ 14%nat (of_decimal false 404 (-3))).
  - by_evaluation.
  - by_evaluation.
  - vm_compute. reflexivity.
  - repeat constructor.
Defined.

(** The whole output on [Sample.grid_low] with the cuts 0.45, 0.4, 0.45
    given: two placeholder rows, in ascending order of the cuts. *)
Example placeholders_of_grid_low :
  (main Sample.sorted_distinct (Sample.args Sample.given_cuts) Sample.grid_low ∅).1
  = Written Stdout
      [["mrr_cut"; "k"; "avg_query_time_ns"; "mrr@10"];
       ["0.400000"; "/"; "/"; "/"];
       ["0.450000"; "/"; "/"; "/"]].
Proof. vm_compute. reflexivity. Qed.

(** * Further properties of the selector and of the run *)

(** ** The selector *)

Section SelectorFacts.

Context (h : heap) (mrr_col time_col : string).

(** What any row returned owes to the filter and to the scan. *)
Lemma select_some_minimal (rs : list loc) (cut : float) (best : loc) :
  select_best_for_cut h rs mrr_col time_col cut = Some best ->
  best ∈ rs
  /\ geb (column_value h mrr_col best) cut = true
  /\ (forall y, y ∈ rs -> geb (column_value h mrr_col y) cut = true ->
        ltb (column_value h time_col y) (column_value h time_col best) = false).
Proof.
  intros Hsel.
  destruct (filtered_rows h rs mrr_col cut) as [|first rest] eqn:Hf;
    [by rewrite select_none in Hsel|].
  rewrite (select_some _ _ _ _ _ first rest) in Hsel by done. injection Hsel as Hbest.
  destruct (min_scan_split (column_value h time_col) [] first [] rest)
    as (pre & post & Heq & Hpre & Hpost);
    [by intros y Hy%elem_of_nil | by intros y Hy%elem_of_nil |].
  rewrite Hbest in Heq, Hpre, Hpost. simpl in Heq. rewrite <- Hf in Heq.
  assert (best ∈ filtered_rows h rs mrr_col cut) as Hin
    by (rewrite Heq; apply elem_of_app; right; apply list_elem_of_here).
  apply elem_of_filter_bool in Hin as [Hin Hqual].
  split_and!; [done | done |].
  intros y Hy Hq.
  assert (y ∈ filtered_rows h rs mrr_col cut) as Hyin by (by apply elem_of_filter_bool).
  rewrite Heq in Hyin. apply elem_of_app in Hyin as [Hyin | Hyin].
  - apply not_leb_not_ltb. by apply Hpre.
  - apply elem_of_cons in Hyin as [-> | Hyin]; [apply ltb_irrefl | by apply Hpost].
Qed.

(** X1.  A row whose MRR cell is missing from its dictionary, is [None],
    is rejected by [float] or parses to NaN is never the row returned,
    whatever the cut. *)
Theorem unusable_mrr_never_selected (rs : list loc) (cut : float) (r : loc) :
  (h !!! r) !! mrr_col = None
  \/ (h !!! r) !! mrr_col = Some PNone
  \/ (exists s, (h !!! r) !! mrr_col = Some (PStr s)
                /\ (of_string s = None \/ of_string s = Some nan)) ->
  select_best_for_cut h rs mrr_col time_col cut <> Some r.
Proof.
  intros Hcell Hsel.
  apply select_some_minimal in Hsel as (_ & Hqual & _).
  assert (column_value h mrr_col r = nan) as Hnan.
  { unfold column_value, dict_get, to_float_safe.
    destruct Hcell as [-> | [-> | (s & -> & [Hs | Hs])]]; simpl; try done.
    - by rewrite Hs.
    - by rewrite Hs. }
  rewrite Hnan in Hqual. unfold geb in Hqual. by destruct cut.
Qed.

(** X2.  No row qualifies for a cut that is NaN: the selector returns
    nothing for it, whatever the rows. *)
Theorem nan_cut_selects_nothing (rs : list loc) :
  select_best_for_cut h rs mrr_col time_col nan = None.
Proof.
  apply select_none_iff. intros r _. unfold geb. apply leb_nan_l.
Qed.

(** X3.  Raising the cut never finds a faster row: when a row is returned
    for a cut, a row is returned for every lower cut as well, and its time
    is not greater than the time of the former. *)
Theorem higher_cut_not_faster (rs : list loc) (cut1 cut2 : float) (best2 : loc) :
  leb cut1 cut2 = true ->
  select_best_for_cut h rs mrr_col time_col cut2 = Some best2 ->
  exists best1,
    select_best_for_cut h rs mrr_col time_col cut1 = Some best1
    /\ ltb (column_value h time_col best2) (column_value h time_col best1) = false.
Proof.
  intros Hcuts Hsel2.
  apply select_some_minimal in Hsel2 as (Hin & Hqual2 & _).
  assert (geb (column_value h mrr_col best2) cut1 = true) as Hqual1
    by (unfold geb in *; by eapply leb_trans).
  destruct (select_best_for_cut h rs mrr_col time_col cut1) as [best1|] eqn:Hsel1.
  - exists best1. split; [done|].
    apply select_some_minimal in Hsel1 as (_ & _ & Hmin). by apply Hmin.
  - rewrite select_none_iff in Hsel1. rewrite (Hsel1 _ Hin) in Hqual1. done.
Qed.

(** X8.  A row that does not qualify for the cut has no part in the
    selection: the selector returns the same row with it and without it. *)
Theorem non_qualifying_row_ignored (rs1 rs2 : list loc) (r : loc) (cut : float) :
  geb (column_value h mrr_col r) cut = false ->
  select_best_for_cut h (rs1 ++ r :: rs2) mrr_col time_col cut
  = select_best_for_cut h (rs1 ++ rs2) mrr_col time_col cut.
Proof.
  intros Hr. unfold select_best_for_cut, filtered_rows.
  rewrite !List.filter_app. simpl. by rewrite Hr.
Qed.

End SelectorFacts.

(** ** The rows written *)

Section RunFacts.

Context (sorted_set : list float -> list float) (a : Args.t).

(** The field of a result under [mrr_cut] is the label, the other fields
    are those of the row copied. *)
Lemma labelled_row_fields (d : row) (label : string) (hdr : list string) :
  map (fun k => cell_text (dict_get (<["mrr_cut" := PStr label]> d) k (PStr "")))
      ("mrr_cut" :: hdr)
  = label :: map (fun k => if decide (k = "mrr_cut") then label
                           else cell_text (dict_get d k (PStr ""))) hdr.
Proof.
  cbn [map]. unfold dict_get. rewrite lookup_insert_eq. f_equal.
  apply map_ext. intros k. destruct (decide (k = "mrr_cut")) as [-> | Hne].
  - by rewrite lookup_insert_eq.
  - by rewrite lookup_insert_ne.
Qed.

(** The fields of the placeholder when no input column is named
    [mrr_cut]. *)
Lemma placeholder_fields (label : string) (hdr : list string) :
  Args.time_col a ∈ hdr -> "mrr_cut" ∉ hdr ->
  map (fun k => cell_text (dict_get (<[Args.time_col a := PStr "/"]>
                                       (<["mrr_cut" := PStr label]> (slash_row hdr)))
                                    k (PStr "")))
      ("mrr_cut" :: hdr)
  = label :: map (fun _ => "/") hdr.
Proof.
  intros Ht Hno. cbn [map]. f_equal.
  - unfold dict_get. rewrite lookup_insert_ne by (by intros Heq; rewrite Heq in Ht).
    by rewrite lookup_insert_eq.
  - apply map_ext_in. intros k Hk%list_elem_of_In. unfold dict_get.
    destruct (decide (k = Args.time_col a)) as [-> | Hne].
    + by rewrite lookup_insert_eq.
    + rewrite lookup_insert_ne by done.
      rewrite lookup_insert_ne by (by intros Heq; rewrite <- Heq in Hk).
      rewrite slash_row_lookup. by rewrite decide_True.
Qed.

(** X4.  For a cut that some row of the table qualifies for, the data row
    written for that cut is the label of the cut followed by the fields of
    one row of the table in the order of the header, a field under a column
    named [mrr_cut] being replaced by the label; that row qualifies for the
    cut and no qualifying row of the table has a time less than its time. *)
Theorem matched_cut_writes_selected_row (t : table) (h : heap) (i : nat) (cut : float) :
  Args.mrr_col a ∈ header t -> Args.time_col a ∈ header t ->
  determine_cuts sorted_set (Args.cuts a) !! i = Some cut ->
  Exists (fun d => geb (to_float_safe (dict_get d (Args.mrr_col a) (PStr "nan"))) cut = true)
         (rows t) ->
  exists data rec (j : nat) d,
    (main sorted_set a t h).1 = Written (out_target a) (("mrr_cut" :: header t) :: data)
    /\ data !! i = Some rec
    /\ rows t !! j = Some d
    /\ geb (to_float_safe (dict_get d (Args.mrr_col a) (PStr "nan"))) cut = true
    /\ Forall (fun d' =>
                 geb (to_float_safe (dict_get d' (Args.mrr_col a) (PStr "nan"))) cut = true ->
                 ltb (to_float_safe (dict_get d' (Args.time_col a) (PStr "nan")))
                     (to_float_safe (dict_get d (Args.time_col a) (PStr "nan"))) = false)
              (rows t)
    /\ rec = format_6f cut
             :: map (fun k => if decide (k = "mrr_cut") then format_6f cut
                              else cell_text (dict_get d k (PStr ""))) (header t).
Proof.
  intros Hm Ht Hcut Hsome.
  destruct (main_written sorted_set a t h Hm Ht) as (rs & h1 & h2 & _ & Hall & Hrun & _).
  assert (forall (l : loc) d col, h1 !! l = Some d ->
            column_value h1 col l = to_float_safe (dict_get d col (PStr "nan"))) as Hcol.
  { intros l d col Hl. unfold column_value. by rewrite (lookup_total_correct _ _ _ Hl). }
  destruct (select_best_for_cut h1 rs (Args.mrr_col a) (Args.time_col a) cut)
    as [best|] eqn:Hsel.
  - apply select_some_minimal in Hsel as Hbest. destruct Hbest as (Hin & Hqual & Hmin).
    apply list_elem_of_lookup_1 in Hin as [j Hj].
    destruct (Forall2_lookup_l _ _ _ _ _ Hall Hj) as (d & Hd & Hbest).
    exists (map (fun cut =>
                   map (fun k => cell_text (dict_get (result_dict a (header t) h1 rs cut) k (PStr "")))
                       ("mrr_cut" :: header t))
                (determine_cuts sorted_set (Args.cuts a))),
           (format_6f cut
            :: map (fun k => if decide (k = "mrr_cut") then format_6f cut
                             else cell_text (dict_get d k (PStr ""))) (header t)),
           j, d.
    split_and!.
    + by rewrite Hrun.
    + rewrite lookup_map, Hcut. cbn [fmap option_fmap option_map]. f_equal.
      unfold result_dict. rewrite Hsel, (lookup_total_correct _ _ _ Hbest).
      apply labelled_row_fields.
    + done.
    + by rewrite <- (Hcol best).
    + apply Forall_forall. intros d' Hd' Hq'.
      apply list_elem_of_lookup_1 in Hd' as [j' Hj'].
      destruct (Forall2_lookup_r _ _ _ _ _ Hall Hj') as (l' & Hl' & Hd').
      rewrite <- (Hcol l' d') by done. rewrite <- (Hcol best d) by done.
      apply Hmin; [by eapply list_elem_of_lookup_2|]. by rewrite (Hcol l' d').
    + done.
  - exfalso. rewrite select_none_iff in Hsel.
    apply Exists_exists in Hsome as (d & Hd & Hq).
    apply list_elem_of_lookup_1 in Hd as [j Hj].
    destruct (Forall2_lookup_r _ _ _ _ _ Hall Hj) as (l & Hl & Hld).
    rewrite <- (Hcol l d) in Hq by done.
    rewrite Hsel in Hq; [done|]. by eapply list_elem_of_lookup_2.
Qed.

(** X5.  When the time column is not named [mrr_cut], the first fields of
    the data rows are the labels of the cuts, in the order of the cuts, and
    every data row has one field more than the header has columns. *)
Theorem data_rows_carry_cut_labels (t : table) (h : heap) :
  Args.mrr_col a ∈ header t -> Args.time_col a ∈ header t ->
  Args.time_col a <> "mrr_cut" ->
  exists data,
    (main sorted_set a t h).1 = Written (out_target a) (("mrr_cut" :: header t) :: data)
    /\ map (fun rec : list string => rec !! 0%nat) data
       = map (fun cut => Some (format_6f cut)) (determine_cuts sorted_set (Args.cuts a))
    /\ Forall (fun rec : list string => length rec = S (length (header t))) data.
Proof.
  intros Hm Ht Hne.
  destruct (main_written sorted_set a t h Hm Ht) as (rs & h1 & h2 & _ & _ & Hrun & _).
  rewrite Hrun. eexists. split; [done|]. split.
  - rewrite map_map. apply map_ext. intros cut. cbn [map lookup list_lookup]. f_equal.
    unfold result_dict, dict_get.
    destruct (select_best_for_cut h1 rs _ _ cut).
    + by rewrite lookup_insert_eq.
    + rewrite lookup_insert_ne by done. by rewrite lookup_insert_eq.
  - apply Forall_forall. intros rec Hrec.
    apply list_elem_of_In, in_map_iff in Hrec as (cut & <- & _).
    by rewrite length_map.
Qed.

(** X6.  The data row of a cut does not depend on the other cuts of the
    run, nor on its place among them: two runs over the same table with the
    same two column names write the same row for a cut they both
    evaluate. *)
Theorem row_of_cut_independent_of_other_cuts (sorted_set' : list float -> list float)
    (a' : Args.t) (t : table) (h : heap) (i j : nat) (cut : float) :
  Args.mrr_col a' = Args.mrr_col a -> Args.time_col a' = Args.time_col a ->
  Args.mrr_col a ∈ header t -> Args.time_col a ∈ header t ->
  determine_cuts sorted_set (Args.cuts a) !! i = Some cut ->
  determine_cuts sorted_set' (Args.cuts a') !! j = Some cut ->
  exists data data' rec,
    (main sorted_set a t h).1 = Written (out_target a) (("mrr_cut" :: header t) :: data)
    /\ (main sorted_set' a' t h).1 = Written (out_target a') (("mrr_cut" :: header t) :: data')
    /\ data !! i = Some rec
    /\ data' !! j = Some rec.
Proof.
  intros Hmrr Htime Hm Ht Hi Hj.
  destruct (main_written sorted_set a t h Hm Ht) as (rs & h1 & h2 & Hread & _ & Hrun & _).
  destruct (main_written sorted_set' a' t h) as (rs' & h1' & h2' & Hread' & _ & Hrun' & _);
    [by rewrite Hmrr | by rewrite Htime |].
  rewrite Hread in Hread'. injection Hread' as <- <-.
  rewrite Hrun, Hrun'. do 3 eexists. split_and!; [done | done | |].
  - rewrite lookup_map, Hi. done.
  - rewrite lookup_map, Hj. cbn [fmap option_fmap option_map]. f_equal.
    unfold result_dict. by rewrite Hmrr, Htime.
Qed.

(** X7.  A table without rows whose header has no column named [mrr_cut]
    gives one placeholder row per cut: the label of the cut, then the marker
    under every column of the header. *)
Theorem empty_table_gives_placeholders (t : table) (h : heap) :
  rows t = [] ->
  Args.mrr_col a ∈ header t -> Args.time_col a ∈ header t ->
  "mrr_cut" ∉ header t ->
  (main sorted_set a t h).1
  = Written (out_target a)
      (("mrr_cut" :: header t)
       :: map (fun cut => format_6f cut :: map (fun _ => "/") (header t))
              (determine_cuts sorted_set (Args.cuts a))).
Proof.
  intros Hrows Hm Ht Hno.
  destruct (main_written sorted_set a t h Hm Ht) as (rs & h1 & h2 & _ & Hall & Hrun & _).
  rewrite Hrun. cbn [fst]. do 2 f_equal. apply map_ext. intros cut.
  unfold result_dict. rewrite (no_row_qualifies a t rs h1 cut Hall).
  - by apply placeholder_fields.
  - rewrite Hrows. constructor.
Qed.

End RunFacts.

Lemma unusable_mrr_never_selected_witness :
  select_best_for_cut (Sample.loaded Sample.grid_low).2 (Sample.loaded Sample.grid_low).1
    "mrr@10" "avg_query_time_ns" (of_decimal false 1 (-1)) <> Some 2%positive.
Proof.
  apply (unusable_mrr_never_selected (Sample.loaded Sample.grid_low).2
           "mrr@10" "avg_query_time_ns" (Sample.loaded Sample.grid_low).1
           (of_decimal false 1 (-1)) 2%positive).
  right. right. exists "n/a". split; [|left]; vm_compute; reflexivity.
Defined.

Lemma higher_cut_not_faster_witness :
  exists best1,
    select_best_for_cut (Sample.loaded Sample.grid).2 (Sample.loaded Sample.grid).1
      "mrr@10" "avg_query_time_ns" (of_decimal false 40 (-2)) = Some best1
    /\ ltb (column_value (Sample.loaded Sample.grid).2 "avg_query_time_ns" 3%positive)
           (column_value (Sample.loaded Sample.grid).2 "avg_query_time_ns" best1) = false.
Proof.
  apply (higher_cut_not_faster (Sample.loaded Sample.grid).2 "mrr@10" "avg_query_time_ns"
           (Sample.loaded Sample.grid).1 (of_decimal false 40 (-2)) (of_decimal false 41 (-2))
           3%positive); vm_compute; reflexivity.
Defined.

Lemma non_qualifying_row_ignored_witness :
  select_best_for_cut (Sample.loaded Sample.grid).2 ([] ++ 1%positive :: [2%positive; 3%positive])
    "mrr@10" "avg_query_time_ns" (of_decimal false 40 (-2))
  = select_best_for_cut (Sample.loaded Sample.grid).2 ([] ++ [2%positive; 3%positive])
      "mrr@10" "avg_query_time_ns" (of_decimal false 40 (-2)).
Proof.
  apply (non_qualifying_row_ignored (Sample.loaded Sample.grid).2 "mrr@10" "avg_query_time_ns"
           [] [2%positive; 3%positive] 1%positive (of_decimal false 40 (-2))).
  vm_compute. reflexivity.
Defined.

Lemma matched_cut_writes_selected_row_witness :
  exists data rec (j : nat) d,
    (main Sample.sorted_distinct (Sample.args None) Sample.grid ∅).1
    = Written (out_target (Sample.args None)) (("mrr_cut" :: header Sample.grid) :: data)
    /\ data !! 0%nat = Some rec
    /\ rows Sample.grid !! j = Some d
    /\ geb (to_float_safe (dict_get d (Args.mrr_col (Sample.args None)) (PStr "nan")))
           (of_decimal false 39 (-2)) = true
    /\ Forall (fun d' =>
                 geb (to_float_safe (dict_get d' (Args.mrr_col (Sample.args None)) (PStr "nan")))
                     (of_decimal false 39 (-2)) = true ->
                 ltb (to_float_safe (dict_get d' (Args.time_col (Sample.args None)) (PStr "nan")))
                     (to_float_safe (dict_get d (Args.time_col (Sample.args None)) (PStr "nan")))
                 = false)
              (rows Sample.grid)
    /\ rec = format_6f (of_decimal false 39 (-2))
             :: map (fun k => if decide (k = "mrr_cut") then format_6f (of_decimal false 39 (-2))
                              else cell_text (dict_get d k (PStr ""))) (header Sample.grid).
Proof.
  apply (matched_cut_writes_selected_row Sample.sorted_distinct (Sample.args None)
           Sample.grid ∅ 0%nat (of_decimal false 39 (-2))).
  - by_evaluation.
  - by_evaluation.
  - vm_compute. reflexivity.
  - apply Exists_cons_tl, Exists_cons_hd. vm_compute. reflexivity.
Defined.

Lemma data_rows_carry_cut_labels_witness :
  exists data,
    (main Sample.sorted_distinct (Sample.args Sample.given_cuts) Sample.grid ∅).1
    = Written (out_target (Sample.args Sample.given_cuts))
        (("mrr_cut" :: header Sample.grid) :: data)
    /\ map (fun rec : list string => rec !! 0%nat) data
       = map (fun cut => Some (format_6f cut))
             (determine_cuts Sample.sorted_distinct (Args.cuts (Sample.args Sample.given_cuts)))
    /\ Forall (fun rec : list string => length rec = S (length (header Sample.grid))) data.
Proof.
  apply (data_rows_carry_cut_labels Sample.sorted_distinct (Sample.args Sample.given_cuts)
           Sample.grid ∅).
  - by_evaluation.
  - by_evaluation.
  - vm_compute. discriminate.
Defined.

Lemma row_of_cut_independent_of_other_cuts_witness :
  exists data data' rec,
    (main Sample.sorted_distinct (Sample.args None) Sample.grid ∅).1
    = Written (out_target (Sample.args None)) (("mrr_cut" :: header Sample.grid) :: data)
    /\ (main Sample.sorted_distinct (Sample.args Sample.given_cuts) Sample.grid ∅).1
       = Written (out_target (Sample.args Sample.given_cuts))
           (("mrr_cut" :: header Sample.grid) :: data')
    /\ data !! 10%nat = Some rec
    /\ data' !! 0%nat = Some rec.
Proof.
  apply (row_of_cut_independent_of_other_cuts Sample.sorted_distinct (Sample.args None)
           Sample.sorted_distinct (Sample.args Sample.given_cuts) Sample.grid ∅
           10%nat 0%nat (of_decimal false 4 (-1))).
  - reflexivity.
  - reflexivity.
  - by_evaluation.
  - by_evaluation.
  - vm_compute. reflexivity.
  - vm_compute. reflexivity.
Defined.

Lemma empty_table_gives_placeholders_witness :
  (main Sample.sorted_distinct (Sample.args Sample.given_cuts) (Table Sample.columns []) ∅).1
  = Written (out_target (Sample.args Sample.given_cuts))
      (("mrr_cut" :: header (Table Sample.columns []))
       :: map (fun cut => format_6f cut :: map (fun _ => "/") (header (Table Sample.columns [])))
              (determine_cuts Sample.sorted_distinct (Args.cuts (Sample.args Sample.given_cuts)))).
Proof.
  apply (empty_table_gives_placeholders Sample.sorted_distinct (Sample.args Sample.given_cuts)
           (Table Sample.columns []) ∅).
  - reflexivity.
  - by_evaluation.
  - by_evaluation.
  - by_evaluation.
Defined.
